(** * DashboardHeader: a shallow embedding of
      frontend/src/components/DashboardHeader.jsx

    The component is one function.  It reads the router with the
    [useRouter] hook and returns a JSX tree: a logo, a title, and a
    button whose [onClick] is the arrow function [() => router.refresh()].

    The embedding keeps that shape:
    - JavaScript values are the inductive type [Val];
    - code that may throw or touch the host runs in the monad [M]
      (state passing over the host's world, with a completion that is
      either [Normal] or [Throw]);
    - everything imported from outside the repository (the hook, the
      function objects a router carries, the font loader's class name) is
      a field of the record [Host];
    - the JSX tree is the inductive type [Node]; the arrow function is a
      Rocq closure stored in the [onClick] prop. *)

From Stdlib Require Import List String ZArith.
Import ListNotations.
Open Scope string_scope.
Open Scope list_scope.

Set Warnings "-register-all".

(** ** JavaScript values and completions *)

Definition FnId := nat.

(** The values the component can meet.  A function object of the host is
    named by a [FnId]; what calling it does is the host's business
    ([apply_fn] below).  [VError] is an Error object ([name], [message]). *)
Inductive Val : Type :=
| VUndefined
| VNull
| VBool (b : bool)
| VNum (n : Z)
| VStr (s : string)
| VObj (fields : list (string * Val))
| VFun (f : FnId)
| VError (name message : string).

Inductive Completion (A : Type) : Type :=
| Normal (a : A)
| Throw (e : Val).
Arguments Normal {A} a.
Arguments Throw {A} e.

Fixpoint lookup {A : Type} (k : string) (kvs : list (string * A)) : option A :=
  match kvs with
  | [] => None
  | (k', v) :: rest => if String.eqb k k' then Some v else lookup k rest
  end.

(** [v.k]: reading a property.  On [undefined] and [null] the read throws
    a TypeError; on an object it is the field, or [undefined] when the
    object has none; the other values carry no property of interest. *)
Definition GetV (v : Val) (k : string) : Completion Val :=
  match v with
  | VUndefined =>
      Throw (VError "TypeError"
               ("Cannot read properties of undefined (reading '" ++ k ++ "')"))
  | VNull =>
      Throw (VError "TypeError"
               ("Cannot read properties of null (reading '" ++ k ++ "')"))
  | VObj fields =>
      match lookup k fields with
      | Some x => Normal x
      | None => Normal VUndefined
      end
  | _ => Normal VUndefined
  end.

(** ** The host *)

(** What the component imports.  [useRouter] is the hook of
    next/navigation; [apply_fn f this args] is the call of the host's
    function object [f]; [montserrat_className] is the [className] of the
    object the font loader [Montserrat({...})] returned at module load. *)
Record Host : Type := {
  World : Type;
  useRouter : World -> Completion Val * World;
  apply_fn : FnId -> Val -> list Val -> World -> Completion Val * World;
  montserrat_className : string
}.

(** What an observer of the host sees: hook reads, activations of the
    control, and calls of function objects with their receiver and
    arguments. *)
Inductive Event : Type :=
| EvHook (name : string)
| EvClick (ev : Val)
| EvCall (f : FnId) (this : Val) (args : list Val).

(** The calls of function objects in a trace, oldest first. *)
Fixpoint invocations (tr : list Event) : list (FnId * Val * list Val) :=
  match tr with
  | [] => []
  | EvCall f this args :: tr' => (f, this, args) :: invocations tr'
  | _ :: tr' => invocations tr'
  end.

Section Component.

Variable H : Host.

Record State : Type := {
  world : World H;
  trace : list Event
}.

Definition M (A : Type) : Type := State -> Completion A * State.

Definition ret {A : Type} (a : A) : M A := fun s => (Normal a, s).

Definition throw {A : Type} (e : Val) : M A := fun s => (Throw e, s).

Definition bind {A B : Type} (m : M A) (k : A -> M B) : M B :=
  fun s =>
    match m s with
    | (Normal a, s') => k a s'
    | (Throw e, s') => (Throw e, s')
    end.

Notation "x <- m ;; k" := (bind m (fun x => k))
  (at level 61, m at next level, right associativity).

Definition log (e : Event) (s : State) : State :=
  {| world := world s; trace := trace s ++ [e] |}.

Definition lift {A : Type} (c : Completion A) : M A := fun s => (c, s).

(** [useRouter()] *)
Definition call_useRouter : M Val :=
  fun s =>
    let (c, w) := useRouter H (world s) in
    (c, {| world := w; trace := trace s ++ [EvHook "useRouter"] |}).

(** [f.call(this, ...args)] for a function object of the host. *)
Definition call_fn (f : FnId) (this : Val) (args : list Val) : M Val :=
  fun s =>
    let (c, w) := apply_fn H f this args (world s) in
    (c, {| world := w; trace := trace s ++ [EvCall f this args] |}).

(** [obj.name(...args)]: read the property, then call it with [obj] as
    receiver; a value that is not a function is not callable. *)
Definition call_method (objname : string) (obj : Val) (name : string)
    (args : list Val) : M Val :=
  m <- lift (GetV obj name) ;;
  match m with
  | VFun f => call_fn f obj args
  | _ => throw (VError "TypeError"
                  (objname ++ "." ++ name ++ " is not a function"))
  end.

(** ** The element tree *)

Definition Handler : Type := list Val -> M Val.

Inductive PropVal : Type :=
| PStr (s : string)
| PNum (n : Z)
| PHandler (h : Handler).

(** The type of a JSX element: a lower-case tag, or an imported component
    named by its identifier. *)
Inductive ElemType : Type :=
| Intrinsic (tag : string)
| Component (name : string).

Inductive Node : Type :=
| Text (s : string)
| Elem (type : ElemType) (props : list (string * PropVal)) (children : list Node).

(** ** The component *)

(** The expression after [return]; [router] is the constant bound on the
    line before it. *)
Definition DashboardHeader_jsx (router : Val) : Node :=
  Elem (Intrinsic "div")
    [("className",
      PStr ("flex items-center justify-between pb-4 " ++ montserrat_className H))]
    [ Elem (Intrinsic "div")
        [("className", PStr "flex items-center w-fit gap-x-4")]
        [ Elem (Component "Image")
            [("src", PStr "/logo.png"); ("height", PNum 80); ("width", PNum 80);
             ("alt", PStr "Logo")]
            [];
          Elem (Intrinsic "h1")
            [("className", PStr "text-2xl font-bold")]
            [Text "Aerosports TV control"] ];
      Elem (Component "Button")
        [("onClick", PHandler (fun _ => call_method "router" router "refresh" []))]
        [ Elem (Component "RefreshCw")
            [("className", PStr "h-3 w-4 mr-2 justify-end")]
            [];
          Text "Refresh All" ] ].

(** [export function DashboardHeader() { ... }].  The function declares no
    parameter, so whatever the caller passes ([arguments], for React the
    props object) is never read. *)
Definition DashboardHeader (arguments : list Val) : M Node :=
  router <- call_useRouter ;;
  ret (DashboardHeader_jsx router).

(** ** Reading a rendered tree *)

Definition ElemType_eqb (a b : ElemType) : bool :=
  match a, b with
  | Intrinsic x, Intrinsic y => String.eqb x y
  | Component x, Component y => String.eqb x y
  | _, _ => false
  end.

(** First element of the given type, in document order. *)
Fixpoint find_elem (ty : ElemType) (n : Node) : option Node :=
  match n with
  | Text _ => None
  | Elem ty' _ children =>
      if ElemType_eqb ty ty' then Some n
      else
        (fix first (l : list Node) : option Node :=
           match l with
           | [] => None
           | c :: l' =>
               match find_elem ty c with
               | Some r => Some r
               | None => first l'
               end
           end) children
  end.

Fixpoint text_content (n : Node) : string :=
  match n with
  | Text s => s
  | Elem _ _ children =>
      (fix all (l : list Node) : string :=
         match l with
         | [] => ""
         | c :: l' => (text_content c ++ all l')%string
         end) children
  end.

Definition props_of (n : Node) : list (string * PropVal) :=
  match n with
  | Text _ => []
  | Elem _ props _ => props
  end.

Definition children_of (n : Node) : list Node :=
  match n with
  | Text _ => []
  | Elem _ _ children => children
  end.

Definition str_prop (k : string) (n : Node) : option string :=
  match lookup k (props_of n) with
  | Some (PStr s) => Some s
  | _ => None
  end.

Definition num_prop (k : string) (n : Node) : option Z :=
  match lookup k (props_of n) with
  | Some (PNum z) => Some z
  | _ => None
  end.

(** The text of the [h1]. *)
Definition rendered_title (t : Node) : option string :=
  option_map text_content (find_elem (Intrinsic "h1") t).

(** Source, height and width of the [Image]. *)
Definition rendered_logo (t : Node) : option (string * Z * Z) :=
  match find_elem (Component "Image") t with
  | Some img =>
      match str_prop "src" img, num_prop "height" img, num_prop "width" img with
      | Some src, Some h, Some w => Some (src, h, w)
      | _, _, _ => None
      end
  | None => None
  end.

Definition button_label (t : Node) : option string :=
  option_map text_content (find_elem (Component "Button") t).

(** The components placed inside the [Button]. *)
Definition button_icons (t : Node) : list string :=
  match find_elem (Component "Button") t with
  | Some b =>
      flat_map (fun c => match c with
                         | Elem (Component name) _ _ => [name]
                         | _ => []
                         end) (children_of b)
  | None => []
  end.

(** The [onClick] of the [Button]. *)
Definition onClick_of (t : Node) : option Handler :=
  match find_elem (Component "Button") t with
  | Some b =>
      match lookup "onClick" (props_of b) with
      | Some (PHandler h) => Some h
      | _ => None
      end
  | None => None
  end.

(** What the tree looks like: the tree with every handler erased. *)
Inductive Attr : Type :=
| AStr (s : string)
| ANum (n : Z)
| AHandler.

Inductive Visual : Type :=
| VText (s : string)
| VElem (type : ElemType) (attrs : list (string * Attr)) (children : list Visual).

Definition attr_of (p : PropVal) : Attr :=
  match p with
  | PStr s => AStr s
  | PNum n => ANum n
  | PHandler _ => AHandler
  end.

Fixpoint appearance (n : Node) : Visual :=
  match n with
  | Text s => VText s
  | Elem ty props children =>
      VElem ty (map (fun kv => (fst kv, attr_of (snd kv))) props)
            (map appearance children)
  end.

(** ** Activations *)

(** One activation of the refresh control, as the host dispatches it: the
    [onClick] of the rendered tree is called with the event object. *)
Definition click (t : Node) (ev : Val) : M Val :=
  fun s =>
    match onClick_of t with
    | Some h => h [ev] (log (EvClick ev) s)
    | None => (Normal VUndefined, log (EvClick ev) s)
    end.

(** A sequence of activations.  The host dispatches each one on its own:
    a handler that throws ends that dispatch, not the ones after it. *)
Fixpoint click_all (t : Node) (evs : list Val) (s : State)
    : list (Completion Val) * State :=
  match evs with
  | [] => ([], s)
  | ev :: evs' =>
      let (c, s1) := click t ev s in
      let (cs, s2) := click_all t evs' s1 in
      (c :: cs, s2)
  end.

(** [n] calls of [router.refresh()] one after the other, with nothing in
    between: the yardstick for a sequence of activations. *)
Fixpoint refresh_calls (f : FnId) (router : Val) (n : nat) (w : World H)
    : list (Completion Val) * World H :=
  match n with
  | O => ([], w)
  | S n' =>
      let (c, w1) := apply_fn H f router [] w in
      let (cs, w2) := refresh_calls f router n' w1 in
      (c :: cs, w2)
  end.

End Component.

Arguments world {H} s.
Arguments trace {H} s.
Arguments Text {H} s.
Arguments Elem {H} type props children.
Arguments PStr {H} s.
Arguments PNum {H} n.
Arguments PHandler {H} h.

(** ** Stub hosts

    A host for tests: its world counts the reloads performed so far, its
    hook hands out the router it was built with, and it knows three
    function objects. *)

Definition stub_apply (f : FnId) (this : Val) (args : list Val) (w : nat)
    : Completion Val * nat :=
  match f with
  | 0 => (Normal VUndefined, S w)
  | 1 => (Throw (VError "Error" "reload failed"), w)
  | 2 => (Normal (VNum 42), S w)
  | _ => (Normal VUndefined, w)
  end.

Definition stub_host (router : Val) : Host :=
  {| World := nat;
     useRouter := fun w => (Normal router, w);
     apply_fn := stub_apply;
     montserrat_className := "__className_montserrat" |}.

(** A router whose [refresh] reloads. *)
Definition router_ok : Val :=
  VObj [("push", VFun 3); ("refresh", VFun 0)].


(** A router whose [refresh] returns a number. *)
Definition router_answering : Val := VObj [("refresh", VFun 2)].

(** A router without [refresh]. *)
Definition router_bare : Val := VObj [("push", VFun 3)].

Definition start (router : Val) : State (stub_host router) :=
  Build_State (stub_host router) 0%nat [].

Definition click_event : Val := VObj [("type", VStr "click")].

Definition arena2_config : Val :=
  VObj [("title", VStr "Arena 2 Control"); ("logoSource", VStr "/arena2-logo.png")].

(** The title a caller asks for, as a configuration object would carry it. *)
Definition config_title (config : Val) : Val :=
  match config with
  | VObj fields =>
      match lookup "title" fields with
      | Some v => v
      | None => VUndefined
      end
  | _ => VUndefined
  end.

(** A host whose hook only reads: it leaves the world as it found it. *)
Definition hook_reads_only (H : Host) : Prop :=
  forall w, snd (useRouter H w) = w.

(** ** The life of a mounted header

    What the host does with the component over time: it renders it, any
    number of times, and it dispatches the clicks of the user to the tree
    of the latest render. *)

Inductive Step : Type :=
| Render (arguments : list Val)
| Click (ev : Val).

Fixpoint clicks (steps : list Step) : nat :=
  match steps with
  | [] => 0
  | Click _ :: rest => S (clicks rest)
  | Render _ :: rest => clicks rest
  end.

Fixpoint renders (steps : list Step) : nat :=
  match steps with
  | [] => 0
  | Render _ :: rest => S (renders rest)
  | Click _ :: rest => renders rest
  end.

(** The hook reads in a trace. *)
Fixpoint hook_reads (tr : list Event) : nat :=
  match tr with
  | [] => 0
  | EvHook _ :: tr' => S (hook_reads tr')
  | _ :: tr' => hook_reads tr'
  end.

(** A call that is [this.refresh()]: the function called is the [refresh]
    of its receiver, and it gets no argument. *)
Definition refresh_call (i : FnId * Val * list Val) : Prop :=
  match i with
  | (f, this, args) => args = [] /\ GetV this "refresh" = Normal (VFun f)
  end.

Section Session.

Variable H : Host.

(** The host's loop.  [mounted] is the tree on screen, if any.  A render
    that completes puts its tree on screen; a render that throws leaves
    nothing on screen.  A click goes to the button of the tree on screen;
    with nothing on screen there is no button to click. *)
Fixpoint session (steps : list Step) (mounted : option (Node H)) (s : State H)
    : option (Node H) * State H :=
  match steps with
  | [] => (mounted, s)
  | Render arguments :: rest =>
      match DashboardHeader H arguments s with
      | (Normal t, s') => session rest (Some t) s'
      | (Throw _, s') => session rest None s'
      end
  | Click ev :: rest =>
      match mounted with
      | Some t => session rest mounted (snd (click H t ev s))
      | None => session rest None s
      end
  end.

(** What can be on screen: nothing, or a tree the component returned. *)
Definition rendered (mounted : option (Node H)) : Prop :=
  mounted = None \/ exists router, mounted = Some (DashboardHeader_jsx H router).

(** Every handler a tree carries, in document order: the type of the
    element that carries it and the name of the prop. *)
Fixpoint handler_props (n : Node H) : list (ElemType * string) :=
  match n with
  | Text _ => []
  | Elem ty props children =>
      flat_map (fun kv => match snd kv with
                          | PHandler _ => [(ty, fst kv)]
                          | _ => []
                          end) props
      ++ flat_map handler_props children
  end.

End Session.

(** A host on which the router is not mounted: the hook throws, as the
    hook of next/navigation does outside of an app router. *)
Definition unmounted_host : Host :=
  {| World := nat;
     useRouter := fun w =>
       (Throw (VError "Error" "invariant expected app router to be mounted"), w);
     apply_fn := stub_apply;
     montserrat_className := "__className_montserrat" |}.

(** ** Where the host takes a fault

    The host is React.  A fault thrown while a component renders is handed
    to the error boundary above it, and the boundary's fallback replaces
    the tree.  A fault thrown by an event handler is handed to no
    boundary: the dispatch reports it as an uncaught error (the error
    event of the window) and the tree on screen stays as it is.  What a
    handler returns is dropped. *)



Section Dispatch.

Variable H : Host.



(** The calls a session is to make, told without any tree: [router] is the
    router the hook handed out at the latest render, if that render
    completed; a render reads the hook in the current world; a click calls
    the [refresh] of [router], with [router] as receiver and no argument,
    when [router] has such a function, and calls nothing otherwise. *)
Fixpoint expected_calls (steps : list Step) (router : option Val) (w : World H)
    : list (FnId * Val * list Val) :=
  match steps with
  | [] => []
  | Render _ :: rest =>
      match useRouter H w with
      | (Normal r, w') => expected_calls rest (Some r) w'
      | (Throw _, w') => expected_calls rest None w'
      end
  | Click _ :: rest =>
      match router with
      | Some r =>
          match GetV r "refresh" with
          | Normal (VFun f) =>
              (f, r, []) :: expected_calls rest router (snd (apply_fn H f r [] w))
          | _ => expected_calls rest router w
          end
      | None => expected_calls rest None w
      end
  end.

End Dispatch.

(** A host whose hook hands out one router in even worlds and another in
    odd ones. *)
Definition switching_host : Host :=
  {| World := nat;
     useRouter := fun w =>
       (Normal (if Nat.even w then router_ok else router_answering), w);
     apply_fn := stub_apply;
     montserrat_className := "__className_montserrat" |}.

(** * Properties *)

Section Properties.

Variable H : Host.

(** ** Basic equations of the component *)

Lemma invocations_app (tr1 tr2 : list Event) :
  invocations (tr1 ++ tr2) = invocations tr1 ++ invocations tr2.
Proof.
  induction tr1 as [| e tr1 IH]; simpl.
  - reflexivity.
  - destruct e; simpl; rewrite IH; reflexivity.
Qed.

(** A render is the hook read followed by the tree built on its result. *)
Lemma render_unfold (arguments : list Val) (s : State H) :
  DashboardHeader H arguments s =
  (match fst (useRouter H (world s)) with
   | Normal router => Normal (DashboardHeader_jsx H router)
   | Throw e => Throw e
   end,
   {| world := snd (useRouter H (world s));
      trace := trace s ++ [EvHook "useRouter"] |}).
Proof.
  unfold DashboardHeader, bind, call_useRouter, ret.
  destruct (useRouter H (world s)) as [[router | e] w]; reflexivity.
Qed.

Lemma render_normal (arguments : list Val) (s : State H) (router : Val)
    (w : World H) :
  useRouter H (world s) = (Normal router, w) ->
  DashboardHeader H arguments s =
  (Normal (DashboardHeader_jsx H router),
   {| world := w; trace := trace s ++ [EvHook "useRouter"] |}).
Proof.
  intros Hhook. rewrite render_unfold, Hhook. reflexivity.
Qed.

(** The handler of the rendered button is the arrow function. *)
Lemma onClick_of_jsx (router : Val) :
  onClick_of H (DashboardHeader_jsx H router) =
  Some (fun _ => call_method H "router" router "refresh" []).
Proof. reflexivity. Qed.

Lemma click_jsx (router ev : Val) (s : State H) :
  click H (DashboardHeader_jsx H router) ev s =
  call_method H "router" router "refresh" [] (log H (EvClick ev) s).
Proof. reflexivity. Qed.

(** Calling a method that is a function object is calling that object. *)
Lemma call_method_function (objname : string) (obj : Val) (name : string)
    (args : list Val) (f : FnId) (s : State H) :
  GetV obj name = Normal (VFun f) ->
  call_method H objname obj name args s = call_fn H f obj args s.
Proof.
  intros Hget. unfold call_method, bind, lift. rewrite Hget. reflexivity.
Qed.

(** One activation when the router carries a [refresh] function. *)
Lemma click_refresh (router ev : Val) (f : FnId) (s : State H) :
  GetV router "refresh" = Normal (VFun f) ->
  click H (DashboardHeader_jsx H router) ev s =
  (fst (apply_fn H f router [] (world s)),
   {| world := snd (apply_fn H f router [] (world s));
      trace := trace s ++ [EvClick ev; EvCall f router []] |}).
Proof.
  intros Hget. rewrite click_jsx, (call_method_function _ _ _ _ f) by exact Hget.
  unfold call_fn, log; simpl.
  destruct (apply_fn H f router [] (world s)) as [c w]; simpl.
  rewrite <- app_assoc. reflexivity.
Qed.

(** Calling a method that is not a function object throws, and touches
    nothing. *)
Lemma call_method_not_function (objname : string) (obj : Val) (name : string)
    (args : list Val) (s : State H) :
  (forall f, GetV obj name <> Normal (VFun f)) ->
  exists message,
    call_method H objname obj name args s = (Throw (VError "TypeError" message), s).
Proof.
  intros Hnot. unfold call_method, bind, lift, throw.
  destruct obj; simpl in *; eauto.
  destruct (lookup name fields) as [[] |]; eauto.
  exfalso. eapply Hnot. reflexivity.
Qed.

(** ** The refresh trigger *)

(** C1.  Render the header where the hook hands out a router whose
    [refresh] is a function.  Then every single activation of the button
    calls that function exactly once, with the router as receiver and with
    no arguments, before the activation returns; the activation ends the
    way that one call ended (its value, or what it threw) in the world
    that call left: nothing is retried and nothing is held back. *)
Theorem activation_invokes_refresh_once (arguments : list Val) (s : State H)
    (router : Val) (w : World H) (f : FnId) :
  useRouter H (world s) = (Normal router, w) ->
  GetV router "refresh" = Normal (VFun f) ->
  exists t s1,
    DashboardHeader H arguments s = (Normal t, s1) /\
    forall (ev : Val) (s2 : State H),
      click H t ev s2 =
      (fst (apply_fn H f router [] (world s2)),
       {| world := snd (apply_fn H f router [] (world s2));
          trace := trace s2 ++ [EvClick ev; EvCall f router []] |}) /\
      invocations (trace (snd (click H t ev s2))) =
      invocations (trace s2) ++ [(f, router, [])].
Proof.
  intros Hhook Hget.
  eexists; eexists; split.
  - apply render_normal; exact Hhook.
  - intros ev s2. rewrite (click_refresh _ _ f) by exact Hget.
    split; [reflexivity |].
    simpl. rewrite invocations_app. reflexivity.
Qed.

(** A run of activations against a router with a [refresh] function, seen
    as a whole. *)
Lemma click_all_refresh (router : Val) (f : FnId) (evs : list Val) :
  GetV router "refresh" = Normal (VFun f) ->
  forall s : State H,
    click_all H (DashboardHeader_jsx H router) evs s =
    (fst (refresh_calls H f router (List.length evs) (world s)),
     {| world := snd (refresh_calls H f router (List.length evs) (world s));
        trace := trace s ++
                 flat_map (fun ev => [EvClick ev; EvCall f router []]) evs |}).
Proof.
  intros Hget. induction evs as [| ev evs IH]; intros s.
  - simpl. rewrite app_nil_r. destruct s; reflexivity.
  - cbn [click_all List.length refresh_calls flat_map].
    rewrite (click_refresh _ _ f) by exact Hget.
    rewrite IH. cbn [world trace].
    destruct (apply_fn H f router [] (world s)) as [c w1]; cbn [fst snd].
    destruct (refresh_calls H f router (List.length evs) w1) as [cs w2]; cbn [fst snd].
    rewrite <- app_assoc. reflexivity.
Qed.

Lemma invocations_clicks (router : Val) (f : FnId) (evs : list Val) :
  invocations (flat_map (fun ev => [EvClick ev; EvCall f router []]) evs) =
  repeat (f, router, []) (List.length evs).
Proof.
  induction evs as [| ev evs IH]; simpl.
  - reflexivity.
  - rewrite IH. reflexivity.
Qed.

(** C2.  Render the header where the hook hands out a router whose
    [refresh] is a function, and activate the button [N] times in a row.
    Then [refresh] is called [N] times: the trace shows each activation
    followed at once by its own call, in the order of the activations; the
    completions and the final world are those of [N] successive calls of
    [refresh]; no activation is merged with another one. *)
Theorem activations_invoke_refresh_in_order (arguments : list Val)
    (s : State H) (router : Val) (w : World H) (f : FnId) :
  useRouter H (world s) = (Normal router, w) ->
  GetV router "refresh" = Normal (VFun f) ->
  exists t s1,
    DashboardHeader H arguments s = (Normal t, s1) /\
    forall (evs : list Val) (s2 : State H),
      click_all H t evs s2 =
      (fst (refresh_calls H f router (List.length evs) (world s2)),
       {| world := snd (refresh_calls H f router (List.length evs) (world s2));
          trace := trace s2 ++
                   flat_map (fun ev => [EvClick ev; EvCall f router []]) evs |}) /\
      invocations (trace (snd (click_all H t evs s2))) =
      invocations (trace s2) ++ repeat (f, router, []) (List.length evs) /\
      List.length (fst (click_all H t evs s2)) = List.length evs.
Proof.
  intros Hhook Hget.
  eexists; eexists; split.
  - apply render_normal; exact Hhook.
  - intros evs s2. rewrite (click_all_refresh _ f) by exact Hget.
    split; [reflexivity | split].
    + cbn [snd trace]. rewrite invocations_app, invocations_clicks. reflexivity.
    + cbn [fst]. clear. generalize (world s2).
      induction (List.length evs) as [| n IH]; intros w0; simpl.
      * reflexivity.
      * destruct (apply_fn H f router [] w0) as [c w1].
        specialize (IH w1).
        destruct (refresh_calls H f router n w1) as [cs w2]. simpl in *.
        rewrite IH. reflexivity.
Qed.

(** ** What is rendered *)

Lemma title_of_jsx (router : Val) :
  rendered_title H (DashboardHeader_jsx H router) = Some "Aerosports TV control".
Proof. reflexivity. Qed.

Lemma logo_of_jsx (router : Val) :
  rendered_logo H (DashboardHeader_jsx H router) = Some ("/logo.png", 80%Z, 80%Z).
Proof. reflexivity. Qed.

Lemma button_of_jsx (router : Val) :
  button_label H (DashboardHeader_jsx H router) = Some "Refresh All" /\
  button_icons H (DashboardHeader_jsx H router) = ["RefreshCw"].
Proof. split; reflexivity. Qed.

(** With the handler erased nothing of the router is left in the tree. *)
Lemma appearance_of_jsx (router router' : Val) :
  appearance H (DashboardHeader_jsx H router) =
  appearance H (DashboardHeader_jsx H router').
Proof. reflexivity. Qed.

(** The arguments of a render are not read. *)
Lemma render_ignores_arguments (arguments arguments' : list Val) (s : State H) :
  DashboardHeader H arguments s = DashboardHeader H arguments' s.
Proof. reflexivity. Qed.

(** C3, as the code has it.  The component reads no configuration: with
    any arguments at all (the configuration of the scenario among them) a
    render is the render without arguments, its title is "Aerosports TV
    control" and its logo is "/logo.png" at 80 by 80; and the refresh
    capability is not an argument either: what an activation calls is the
    [refresh] of the router the component got from [useRouter]. *)
Theorem configuration_is_not_read (arguments : list Val) (s : State H)
    (router : Val) (w : World H) :
  useRouter H (world s) = (Normal router, w) ->
  DashboardHeader H arguments s = DashboardHeader H [] s /\
  exists t s1,
    DashboardHeader H arguments s = (Normal t, s1) /\
    rendered_title H t = Some "Aerosports TV control" /\
    rendered_logo H t = Some ("/logo.png", 80%Z, 80%Z) /\
    forall (ev : Val) (s2 : State H),
      click H t ev s2 =
      call_method H "router" router "refresh" [] (log H (EvClick ev) s2).
Proof.
  intros Hhook. split.
  - apply render_ignores_arguments.
  - eexists; eexists; split; [apply render_normal; exact Hhook |].
    split; [apply title_of_jsx |].
    split; [apply logo_of_jsx |].
    intros ev s2. apply click_jsx.
Qed.

(** C4.  On a host whose hook only reads, a render changes nothing: the
    world after it is the world before it, no function object was called
    (the trace grew by the hook read alone), and rendering again, with the
    same arguments, gives the same completion, hence the same tree.  The
    render is total: where the hook returns a router it returns the tree
    built on it. *)
Theorem rendering_is_pure_and_idempotent (arguments : list Val) (s : State H) :
  hook_reads_only H ->
  world (snd (DashboardHeader H arguments s)) = world s /\
  trace (snd (DashboardHeader H arguments s)) = trace s ++ [EvHook "useRouter"] /\
  invocations (trace (snd (DashboardHeader H arguments s))) = invocations (trace s) /\
  fst (DashboardHeader H arguments (snd (DashboardHeader H arguments s))) =
  fst (DashboardHeader H arguments s) /\
  (forall router w,
      useRouter H (world s) = (Normal router, w) ->
      fst (DashboardHeader H arguments s) = Normal (DashboardHeader_jsx H router)).
Proof.
  intros Hreads.
  assert (Hw : world (snd (DashboardHeader H arguments s)) = world s).
  { rewrite render_unfold. cbn [snd world]. apply Hreads. }
  split; [exact Hw |].
  split; [rewrite render_unfold; reflexivity |].
  split.
  { rewrite render_unfold. cbn [snd trace].
    rewrite invocations_app. simpl. apply app_nil_r. }
  split.
  { rewrite (render_unfold arguments (snd _)), Hw.
    rewrite (render_unfold arguments s). reflexivity. }
  intros router w Hhook. rewrite render_unfold, Hhook. reflexivity.
Qed.

(** C5, as the code has it.  Where the router the hook hands out has no
    [refresh] function (the property is missing or is not a function, or
    the router itself is [undefined] or [null]), the render is accepted
    all the same, and every activation throws a TypeError to its caller;
    it calls no function object and leaves the world as it was. *)
Theorem missing_refresh_throws_type_error (arguments : list Val) (s : State H)
    (router : Val) (w : World H) :
  useRouter H (world s) = (Normal router, w) ->
  (forall f, GetV router "refresh" <> Normal (VFun f)) ->
  exists t s1,
    DashboardHeader H arguments s = (Normal t, s1) /\
    forall (ev : Val) (s2 : State H),
    exists message,
      click H t ev s2 =
      (Throw (VError "TypeError" message), log H (EvClick ev) s2).
Proof.
  intros Hhook Hnot.
  eexists; eexists; split; [apply render_normal; exact Hhook |].
  intros ev s2. rewrite click_jsx.
  apply call_method_not_function. exact Hnot.
Qed.


(** C7.  Take any arguments whose configuration (the first argument,
    [undefined] when there is none) has an empty or undefined title.
    Where the hook hands out a router the render completes normally and
    its title is "Aerosports TV control".  The configuration cannot make
    the render fail: the outcome is that of the render without
    arguments. *)
Theorem empty_title_falls_back_to_default (arguments : list Val) (s : State H)
    (router : Val) (w : World H) :
  config_title (hd VUndefined arguments) = VUndefined \/
  config_title (hd VUndefined arguments) = VStr "" ->
  useRouter H (world s) = (Normal router, w) ->
  (exists t s1,
      DashboardHeader H arguments s = (Normal t, s1) /\
      rendered_title H t = Some "Aerosports TV control") /\
  DashboardHeader H arguments s = DashboardHeader H [] s.
Proof.
  intros _ Hhook. split.
  - eexists; eexists; split; [apply render_normal; exact Hhook |].
    apply title_of_jsx.
  - apply render_ignores_arguments.
Qed.

(** C8.  Rendered without any configuration, where the hook hands out a
    router, the header shows the logo with height 80 and width 80 and the
    title "Aerosports TV control". *)
Theorem default_configuration_render (s : State H) (router : Val) (w : World H) :
  useRouter H (world s) = (Normal router, w) ->
  exists t s1,
    DashboardHeader H [] s = (Normal t, s1) /\
    rendered_logo H t = Some ("/logo.png", 80%Z, 80%Z) /\
    rendered_title H t = Some "Aerosports TV control".
Proof.
  intros Hhook.
  eexists; eexists; split; [apply render_normal; exact Hhook |].
  split; [apply logo_of_jsx | apply title_of_jsx].
Qed.

(** C9.  Take two renders, with any arguments and in any states, in which
    the hook hands out a router.  Both complete normally and look the
    same: the title is "Aerosports TV control", the logo is "/logo.png"
    at 80 by 80, the button reads "Refresh All" and holds the [RefreshCw]
    icon, and the two trees agree once handlers are erased.  Where the two
    routers are the same router, the two trees are the same tree. *)
Theorem appearance_is_constant (arguments1 arguments2 : list Val)
    (s1 s2 : State H) (router1 router2 : Val) (w1 w2 : World H) :
  useRouter H (world s1) = (Normal router1, w1) ->
  useRouter H (world s2) = (Normal router2, w2) ->
  exists t1 t2 s1' s2',
    DashboardHeader H arguments1 s1 = (Normal t1, s1') /\
    DashboardHeader H arguments2 s2 = (Normal t2, s2') /\
    appearance H t1 = appearance H t2 /\
    rendered_title H t1 = Some "Aerosports TV control" /\
    rendered_logo H t1 = Some ("/logo.png", 80%Z, 80%Z) /\
    button_label H t1 = Some "Refresh All" /\
    button_icons H t1 = ["RefreshCw"] /\
    (router1 = router2 -> t1 = t2).
Proof.
  intros Hhook1 Hhook2.
  do 4 eexists.
  split; [apply render_normal; exact Hhook1 |].
  split; [apply render_normal; exact Hhook2 |].
  split; [apply appearance_of_jsx |].
  split; [apply title_of_jsx |].
  split; [apply logo_of_jsx |].
  split; [apply button_of_jsx |].
  split; [apply button_of_jsx |].
  intros ->. reflexivity.
Qed.

(** C10, as the code has it.  Render the header where the hook hands out a
    router whose [refresh] is a function.  The button's handler does one
    thing: it calls that function once, with the router as receiver and
    no arguments, whatever arguments the handler itself was given.  The
    handler's completion is the completion of that call, handed back to
    the caller as it is (the returned value, or what was thrown), and the
    world after the handler is the world that call left. *)
Theorem handler_only_calls_refresh (arguments : list Val) (s : State H)
    (router : Val) (w : World H) (f : FnId) :
  useRouter H (world s) = (Normal router, w) ->
  GetV router "refresh" = Normal (VFun f) ->
  exists t s1 h,
    DashboardHeader H arguments s = (Normal t, s1) /\
    onClick_of H t = Some h /\
    forall (args : list Val) (s2 : State H),
      h args s2 =
      (fst (apply_fn H f router [] (world s2)),
       {| world := snd (apply_fn H f router [] (world s2));
          trace := trace s2 ++ [EvCall f router []] |}).
Proof.
  intros Hhook Hget.
  do 3 eexists.
  split; [apply render_normal; exact Hhook |].
  split; [apply onClick_of_jsx |].
  intros args s2. cbv beta.
  rewrite (call_method_function _ _ _ _ f) by exact Hget.
  unfold call_fn.
  destruct (apply_fn H f router [] (world s2)) as [c w']. reflexivity.
Qed.

End Properties.

(** * The properties on the stub hosts *)

(** C1 on the stub host: the router's [refresh] is function [0]. *)
Lemma activation_invokes_refresh_once_witness :
  useRouter (stub_host router_ok) (world (start router_ok)) = (Normal router_ok, 0%nat) /\
  GetV router_ok "refresh" = Normal (VFun 0) /\
  exists t s1,
    DashboardHeader (stub_host router_ok) [] (start router_ok) = (Normal t, s1) /\
    forall (ev : Val) (s2 : State (stub_host router_ok)),
      click (stub_host router_ok) t ev s2 =
      (fst (apply_fn (stub_host router_ok) 0 router_ok [] (world s2)),
       {| world := snd (apply_fn (stub_host router_ok) 0 router_ok [] (world s2));
          trace := trace s2 ++ [EvClick ev; EvCall 0 router_ok []] |}) /\
      invocations (trace (snd (click (stub_host router_ok) t ev s2))) =
      invocations (trace s2) ++ [(0%nat, router_ok, [])].
Proof.
  split; [reflexivity |]. split; [reflexivity |].
  apply (activation_invokes_refresh_once (stub_host router_ok) []
           (start router_ok) router_ok 0%nat 0%nat); reflexivity.
Defined.

(** C2 on the stub host. *)
Lemma activations_invoke_refresh_in_order_witness :
  useRouter (stub_host router_ok) (world (start router_ok)) = (Normal router_ok, 0%nat) /\
  GetV router_ok "refresh" = Normal (VFun 0) /\
  exists t s1,
    DashboardHeader (stub_host router_ok) [] (start router_ok) = (Normal t, s1) /\
    forall (evs : list Val) (s2 : State (stub_host router_ok)),
      click_all (stub_host router_ok) t evs s2 =
      (fst (refresh_calls (stub_host router_ok) 0 router_ok (List.length evs) (world s2)),
       {| world := snd (refresh_calls (stub_host router_ok) 0 router_ok
                          (List.length evs) (world s2));
          trace := trace s2 ++
                   flat_map (fun ev => [EvClick ev; EvCall 0 router_ok []]) evs |}) /\
      invocations (trace (snd (click_all (stub_host router_ok) t evs s2))) =
      invocations (trace s2) ++ repeat (0%nat, router_ok, []) (List.length evs) /\
      List.length (fst (click_all (stub_host router_ok) t evs s2)) = List.length evs.
Proof.
  split; [reflexivity |]. split; [reflexivity |].
  apply (activations_invoke_refresh_in_order (stub_host router_ok) []
           (start router_ok) router_ok 0%nat 0%nat); reflexivity.
Defined.

(** Three activations on the stub host: three reloads, three calls. *)
Example three_clicks :
  click_all (stub_host router_ok) (DashboardHeader_jsx (stub_host router_ok) router_ok)
    [VNum 1; VNum 2; VNum 3] (start router_ok) =
  ([Normal VUndefined; Normal VUndefined; Normal VUndefined],
   Build_State (stub_host router_ok) 3%nat
     [EvClick (VNum 1); EvCall 0 router_ok [];
      EvClick (VNum 2); EvCall 0 router_ok [];
      EvClick (VNum 3); EvCall 0 router_ok []]).
Proof. reflexivity. Qed.

(** C3 as it is written fails: rendered with the configuration of the
    scenario, and with a capability of the caller's as second argument,
    the title is still the fixed one, and an activation calls the router's
    [refresh] (function [0]), not the caller's function [2]. *)
Lemma arena2_configuration_is_ignored :
  config_title arena2_config = VStr "Arena 2 Control" /\
  exists t s1,
    DashboardHeader (stub_host router_ok) [arena2_config; VFun 2] (start router_ok) =
    (Normal t, s1) /\
    rendered_title (stub_host router_ok) t = Some "Aerosports TV control" /\
    rendered_title (stub_host router_ok) t <> Some "Arena 2 Control" /\
    invocations (trace (snd (click (stub_host router_ok) t click_event s1))) =
    [(0%nat, router_ok, [])].
Proof.
  split; [reflexivity |].
  eexists; eexists; split; [reflexivity |].
  split; [reflexivity |].
  split; [discriminate | reflexivity].
Qed.

(** C3, as the code has it, on the stub host with the configuration of the
    scenario. *)
Lemma configuration_is_not_read_witness :
  useRouter (stub_host router_ok) (world (start router_ok)) = (Normal router_ok, 0%nat) /\
  DashboardHeader (stub_host router_ok) [arena2_config] (start router_ok) =
  DashboardHeader (stub_host router_ok) [] (start router_ok) /\
  exists t s1,
    DashboardHeader (stub_host router_ok) [arena2_config] (start router_ok) =
    (Normal t, s1) /\
    rendered_title (stub_host router_ok) t = Some "Aerosports TV control" /\
    rendered_logo (stub_host router_ok) t = Some ("/logo.png", 80%Z, 80%Z) /\
    forall (ev : Val) (s2 : State (stub_host router_ok)),
      click (stub_host router_ok) t ev s2 =
      call_method (stub_host router_ok) "router" router_ok "refresh" []
        (log (stub_host router_ok) (EvClick ev) s2).
Proof.
  split; [reflexivity |].
  apply (configuration_is_not_read (stub_host router_ok) [arena2_config]
           (start router_ok) router_ok 0%nat); reflexivity.
Defined.

(** C4 on the stub host, whose hook only reads. *)
Lemma rendering_is_pure_and_idempotent_witness :
  hook_reads_only (stub_host router_ok) /\
  world (snd (DashboardHeader (stub_host router_ok) [] (start router_ok))) =
  world (start router_ok) /\
  trace (snd (DashboardHeader (stub_host router_ok) [] (start router_ok))) =
  trace (start router_ok) ++ [EvHook "useRouter"] /\
  invocations (trace (snd (DashboardHeader (stub_host router_ok) [] (start router_ok)))) =
  invocations (trace (start router_ok)) /\
  fst (DashboardHeader (stub_host router_ok) []
         (snd (DashboardHeader (stub_host router_ok) [] (start router_ok)))) =
  fst (DashboardHeader (stub_host router_ok) [] (start router_ok)) /\
  (forall router w,
      useRouter (stub_host router_ok) (world (start router_ok)) = (Normal router, w) ->
      fst (DashboardHeader (stub_host router_ok) [] (start router_ok)) =
      Normal (DashboardHeader_jsx (stub_host router_ok) router)).
Proof.
  split; [intros w; reflexivity |].
  apply (rendering_is_pure_and_idempotent (stub_host router_ok) [] (start router_ok)).
  intros w; reflexivity.
Defined.

(** C5 as it is written fails: with a router that has no [refresh] the
    render is accepted, and the activation is not a no-op: it throws the
    engine's TypeError. *)
Lemma bare_router_click_throws :
  GetV router_bare "refresh" = Normal VUndefined /\
  exists t s1,
    DashboardHeader (stub_host router_bare) [] (start router_bare) = (Normal t, s1) /\
    click (stub_host router_bare) t click_event s1 =
    (Throw (VError "TypeError" "router.refresh is not a function"),
     log (stub_host router_bare) (EvClick click_event) s1).
Proof.
  split; [reflexivity |].
  eexists; eexists; split; reflexivity.
Qed.

(** The same with no router at all. *)
Example undefined_router_click_throws :
  click (stub_host VUndefined) (DashboardHeader_jsx (stub_host VUndefined) VUndefined)
    click_event (start VUndefined) =
  (Throw (VError "TypeError" "Cannot read properties of undefined (reading 'refresh')"),
   log (stub_host VUndefined) (EvClick click_event) (start VUndefined)).
Proof. reflexivity. Qed.

(** C5, as the code has it, on the stub host with the bare router. *)
Lemma missing_refresh_throws_type_error_witness :
  useRouter (stub_host router_bare) (world (start router_bare)) =
  (Normal router_bare, 0%nat) /\
  (forall f, GetV router_bare "refresh" <> Normal (VFun f)) /\
  exists t s1,
    DashboardHeader (stub_host router_bare) [] (start router_bare) = (Normal t, s1) /\
    forall (ev : Val) (s2 : State (stub_host router_bare)),
    exists message,
      click (stub_host router_bare) t ev s2 =
      (Throw (VError "TypeError" message), log (stub_host router_bare) (EvClick ev) s2).
Proof.
  split; [reflexivity |].
  split; [intros f; simpl; discriminate |].
  apply (missing_refresh_throws_type_error (stub_host router_bare) []
           (start router_bare) router_bare 0%nat);
    [reflexivity | intros f; simpl; discriminate].
Defined.



(** C7 on the stub host, with a configuration whose title is empty. *)
Lemma empty_title_falls_back_to_default_witness :
  (config_title (hd VUndefined [VObj [("title", VStr "")]]) = VUndefined \/
   config_title (hd VUndefined [VObj [("title", VStr "")]]) = VStr "") /\
  useRouter (stub_host router_ok) (world (start router_ok)) = (Normal router_ok, 0%nat) /\
  (exists t s1,
      DashboardHeader (stub_host router_ok) [VObj [("title", VStr "")]] (start router_ok) =
      (Normal t, s1) /\
      rendered_title (stub_host router_ok) t = Some "Aerosports TV control") /\
  DashboardHeader (stub_host router_ok) [VObj [("title", VStr "")]] (start router_ok) =
  DashboardHeader (stub_host router_ok) [] (start router_ok).
Proof.
  split; [right; reflexivity |]. split; [reflexivity |].
  apply (empty_title_falls_back_to_default (stub_host router_ok)
           [VObj [("title", VStr "")]] (start router_ok) router_ok 0%nat);
    [right; reflexivity | reflexivity].
Defined.

(** C8 on the stub host. *)
Lemma default_configuration_render_witness :
  useRouter (stub_host router_ok) (world (start router_ok)) = (Normal router_ok, 0%nat) /\
  exists t s1,
    DashboardHeader (stub_host router_ok) [] (start router_ok) = (Normal t, s1) /\
    rendered_logo (stub_host router_ok) t = Some ("/logo.png", 80%Z, 80%Z) /\
    rendered_title (stub_host router_ok) t = Some "Aerosports TV control".
Proof.
  split; [reflexivity |].
  apply (default_configuration_render (stub_host router_ok) (start router_ok)
           router_ok 0%nat); reflexivity.
Defined.

(** C9 on the stub host: one render without arguments, one with the
    configuration of the scenario, in a later state. *)
Lemma appearance_is_constant_witness :
  useRouter (stub_host router_ok) (world (start router_ok)) = (Normal router_ok, 0%nat) /\
  useRouter (stub_host router_ok)
    (world (Build_State (stub_host router_ok) 5%nat [EvClick click_event])) =
  (Normal router_ok, 5%nat) /\
  exists t1 t2 s1' s2',
    DashboardHeader (stub_host router_ok) [] (start router_ok) = (Normal t1, s1') /\
    DashboardHeader (stub_host router_ok) [arena2_config]
      (Build_State (stub_host router_ok) 5%nat [EvClick click_event]) = (Normal t2, s2') /\
    appearance (stub_host router_ok) t1 = appearance (stub_host router_ok) t2 /\
    rendered_title (stub_host router_ok) t1 = Some "Aerosports TV control" /\
    rendered_logo (stub_host router_ok) t1 = Some ("/logo.png", 80%Z, 80%Z) /\
    button_label (stub_host router_ok) t1 = Some "Refresh All" /\
    button_icons (stub_host router_ok) t1 = ["RefreshCw"] /\
    (router_ok = router_ok -> t1 = t2).
Proof.
  split; [reflexivity |]. split; [reflexivity |].
  apply (appearance_is_constant (stub_host router_ok) [] [arena2_config]
           (start router_ok)
           (Build_State (stub_host router_ok) 5%nat [EvClick click_event])
           router_ok router_ok 0%nat 5%nat); reflexivity.
Defined.

(** C10 as it is written fails: the handler does not discard what
    [refresh] returns.  Where [refresh] returns 42 the handler returns 42,
    not [undefined]. *)
Lemma handler_hands_back_refresh_value :
  exists t s1 h,
    DashboardHeader (stub_host router_answering) [] (start router_answering) =
    (Normal t, s1) /\
    onClick_of (stub_host router_answering) t = Some h /\
    fst (h [click_event] s1) = Normal (VNum 42) /\
    fst (h [click_event] s1) <> Normal VUndefined.
Proof.
  do 3 eexists.
  split; [reflexivity |]. split; [reflexivity |].
  split; [reflexivity | discriminate].
Qed.

(** C10, as the code has it, on the stub host whose [refresh] returns 42. *)
Lemma handler_only_calls_refresh_witness :
  useRouter (stub_host router_answering) (world (start router_answering)) =
  (Normal router_answering, 0%nat) /\
  GetV router_answering "refresh" = Normal (VFun 2) /\
  exists t s1 h,
    DashboardHeader (stub_host router_answering) [] (start router_answering) =
    (Normal t, s1) /\
    onClick_of (stub_host router_answering) t = Some h /\
    forall (args : list Val) (s2 : State (stub_host router_answering)),
      h args s2 =
      (fst (apply_fn (stub_host router_answering) 2 router_answering [] (world s2)),
       {| world := snd (apply_fn (stub_host router_answering) 2 router_answering [] (world s2));
          trace := trace s2 ++ [EvCall 2 router_answering []] |}).
Proof.
  split; [reflexivity |]. split; [reflexivity |].
  apply (handler_only_calls_refresh (stub_host router_answering) []
           (start router_answering) router_answering 0%nat 2%nat); reflexivity.
Defined.

(** * The component over its lifetime *)

Section Lifetime.

Variable H : Host.

Lemma hook_reads_app (tr1 tr2 : list Event) :
  hook_reads (tr1 ++ tr2) = hook_reads tr1 + hook_reads tr2.
Proof.
  induction tr1 as [| e tr1 IH]; simpl.
  - reflexivity.
  - destruct e; simpl; rewrite IH; reflexivity.
Qed.

(** What one click on a rendered tree leaves in the trace, whatever the
    router: the click, and after it either nothing or the one call of the
    router's [refresh]. *)
Lemma click_footprint (router ev : Val) (s : State H) :
  exists new,
    trace (snd (click H (DashboardHeader_jsx H router) ev s)) =
    trace s ++ EvClick ev :: new /\
    (new = [] \/
     exists f, GetV router "refresh" = Normal (VFun f) /\
               new = [EvCall f router []]).
Proof.
  assert (Hno : (forall f, GetV router "refresh" <> Normal (VFun f)) ->
                exists new,
                  trace (snd (click H (DashboardHeader_jsx H router) ev s)) =
                  trace s ++ EvClick ev :: new /\
                  (new = [] \/
                   exists f, GetV router "refresh" = Normal (VFun f) /\
                             new = [EvCall f router []])).
  { intros Hn.
    destruct (call_method_not_function H "router" router "refresh" []
                (log H (EvClick ev) s) Hn) as [message Hc].
    exists []. rewrite click_jsx, Hc. split; [reflexivity | left; reflexivity]. }
  destruct (GetV router "refresh") as [v | e] eqn:E.
  - destruct v;
      try (apply Hno; intros f0; discriminate).
    exists [EvCall f router []].
    rewrite (click_refresh H _ _ f _ E). split; [reflexivity |].
    right. exists f. split; reflexivity.
  - apply Hno; intros f0; discriminate.
Qed.

(** A render adds no call to the trace, whatever the hook does. *)
Lemma render_invocations (arguments : list Val) (s : State H) :
  invocations (trace (snd (DashboardHeader H arguments s))) = invocations (trace s).
Proof.
  rewrite render_unfold. cbn [snd trace].
  rewrite invocations_app. simpl. apply app_nil_r.
Qed.

(** What a render puts on screen is a tree of the component, or nothing. *)
Lemma render_rendered (arguments : list Val) (s : State H) :
  rendered H (match fst (DashboardHeader H arguments s) with
              | Normal t => Some t
              | Throw _ => None
              end).
Proof.
  rewrite render_unfold. cbn [fst].
  destruct (fst (useRouter H (world s))) as [router | e].
  - right. exists router. reflexivity.
  - left. reflexivity.
Qed.

(** One step of the loop on a render. *)
Lemma session_render (arguments : list Val) (rest : list Step)
    (mounted : option (Node H)) (s : State H) :
  session H (Render arguments :: rest) mounted s =
  session H rest
    (match fst (DashboardHeader H arguments s) with
     | Normal t => Some t
     | Throw _ => None
     end)
    (snd (DashboardHeader H arguments s)).
Proof.
  cbn [session].
  destruct (DashboardHeader H arguments s) as [[t | e] s']; reflexivity.
Qed.

(** The calls of a whole session, from any tree of the component. *)
Lemma session_calls (steps : list Step) :
  forall (mounted : option (Node H)) (s : State H),
    rendered H mounted ->
    exists new,
      invocations (trace (snd (session H steps mounted s))) =
      invocations (trace s) ++ new /\
      Forall refresh_call new /\
      List.length new <= clicks steps.
Proof.
  induction steps as [| step rest IH]; intros mounted s Hm.
  - exists []. cbn. rewrite app_nil_r. repeat split; auto.
  - destruct step as [arguments | ev].
    + rewrite session_render.
      destruct (IH _ (snd (DashboardHeader H arguments s))
                  (render_rendered arguments s)) as (new & Heq & Hall & Hlen).
      exists new. rewrite Heq, render_invocations. repeat split; assumption.
    + destruct Hm as [-> | [router ->]].
      * cbn [session clicks].
        destruct (IH None s (or_introl eq_refl)) as (new & Heq & Hall & Hlen).
        exists new. repeat split; auto.
      * cbn [session clicks].
        assert (Hm' : rendered H (Some (DashboardHeader_jsx H router)))
          by (right; exists router; reflexivity).
        destruct (IH _ (snd (click H (DashboardHeader_jsx H router) ev s)) Hm')
          as (new & Heq & Hall & Hlen).
        destruct (click_footprint router ev s) as (evs & Htr & Hcase).
        rewrite Heq, Htr, invocations_app. cbn [invocations].
        destruct Hcase as [-> | (f & Hget & ->)].
        -- exists new. cbn [invocations]. rewrite app_nil_r.
           repeat split; auto.
        -- exists ((f, router, []) :: new). cbn [invocations].
           rewrite <- app_assoc. split; [reflexivity |].
           split; [constructor; [split; [reflexivity | exact Hget] | exact Hall] |].
           cbn [List.length]. apply le_n_S. exact Hlen.
Qed.

(** X1.  Where the hook throws, the render throws the same value to its
    caller: no tree is returned, the hook was read once and no function
    object was called. *)
Theorem render_hook_fault_propagates (arguments : list Val) (s : State H)
    (e : Val) (w : World H) :
  useRouter H (world s) = (Throw e, w) ->
  DashboardHeader H arguments s =
  (Throw e, {| world := w; trace := trace s ++ [EvHook "useRouter"] |}) /\
  invocations (trace (snd (DashboardHeader H arguments s))) = invocations (trace s).
Proof.
  intros Hhook. split.
  - rewrite render_unfold, Hhook. reflexivity.
  - apply render_invocations.
Qed.

(** The calls of a whole session are the expected ones, from any tree
    the component built on the router of the latest render. *)
Lemma session_calls_exact (steps : list Step) :
  forall (router : option Val) (s : State H),
    invocations
      (trace (snd (session H steps (option_map (DashboardHeader_jsx H) router) s))) =
    invocations (trace s) ++ expected_calls H steps router (world s).
Proof.
  induction steps as [| step rest IH]; intros router s.
  - cbn. rewrite app_nil_r. reflexivity.
  - destruct step as [arguments | ev].
    + rewrite session_render, render_unfold. cbn [fst snd expected_calls].
      destruct (useRouter H (world s)) as [[r | e] w']; cbn [fst snd].
      * rewrite (IH (Some r)). cbn [trace world].
        rewrite invocations_app. cbn [invocations]. rewrite app_nil_r. reflexivity.
      * rewrite (IH None). cbn [trace world].
        rewrite invocations_app. cbn [invocations]. rewrite app_nil_r. reflexivity.
    + destruct router as [r |]; cbn [option_map session expected_calls].
      * rewrite (IH (Some r)).
        assert (Hno : (forall f, GetV r "refresh" <> Normal (VFun f)) ->
                      invocations
                        (trace (snd (click H (DashboardHeader_jsx H r) ev s))) =
                      invocations (trace s) /\
                      world (snd (click H (DashboardHeader_jsx H r) ev s)) = world s).
        { intros Hn.
          destruct (call_method_not_function H "router" r "refresh" []
                      (log H (EvClick ev) s) Hn) as [message Hc].
          rewrite click_jsx, Hc. cbn [snd log trace world].
          rewrite invocations_app. cbn [invocations]. rewrite app_nil_r.
          split; reflexivity. }
        destruct (GetV r "refresh") as [v | e] eqn:E.
        -- destruct v;
             try (destruct Hno as [Hi Hw]; [intros f0; discriminate |];
                  rewrite Hi, Hw; reflexivity).
           rewrite (click_refresh H _ _ f _ E). cbn [snd trace world].
           rewrite invocations_app. cbn [invocations].
           rewrite <- app_assoc. reflexivity.
        -- destruct Hno as [Hi Hw]; [intros f0; discriminate |].
           rewrite Hi, Hw. reflexivity.
      * apply (IH None).
Qed.

(** X2.  Over any session that starts with nothing on screen, on any host
    and with any routers, the calls the component makes are exactly these,
    in this order: for each click on a mounted tree, one call of the
    [refresh] of the router the hook handed out at the latest render, with
    that router as receiver and no argument, when that router has a
    [refresh] function, and no call otherwise.  So every call is a call
    [this.refresh()], there are at most as many calls as clicks, and
    renders make no call. *)
Theorem session_only_calls_refresh (steps : list Step) (s : State H) :
  invocations (trace (snd (session H steps None s))) =
  invocations (trace s) ++ expected_calls H steps None (world s) /\
  Forall refresh_call (expected_calls H steps None (world s)) /\
  List.length (expected_calls H steps None (world s)) <= clicks steps.
Proof.
  pose proof (session_calls_exact steps None s) as Hexact.
  cbn [option_map] in Hexact.
  split; [exact Hexact |].
  destruct (session_calls steps None s (or_introl eq_refl))
    as (new & Heq & Hall & Hlen).
  rewrite Hexact in Heq. apply app_inv_head in Heq. subst new.
  split; assumption.
Qed.

(** The hook reads of a whole session, from any tree of the component. *)
Lemma session_hook_reads_from (steps : list Step) :
  forall (mounted : option (Node H)) (s : State H),
    rendered H mounted ->
    hook_reads (trace (snd (session H steps mounted s))) =
    hook_reads (trace s) + renders steps.
Proof.
  induction steps as [| step rest IH]; intros mounted s Hm.
  - cbn. rewrite Nat.add_0_r. reflexivity.
  - destruct step as [arguments | ev].
    + rewrite session_render, IH by apply render_rendered.
      rewrite render_unfold. cbn [snd trace renders].
      rewrite hook_reads_app. cbn [hook_reads].
      rewrite <- Nat.add_assoc. reflexivity.
    + destruct Hm as [-> | [router ->]]; cbn [session renders].
      * apply IH. left. reflexivity.
      * rewrite IH by (right; exists router; reflexivity).
        destruct (click_footprint router ev s) as (evs & Htr & Hcase).
        rewrite Htr, hook_reads_app.
        destruct Hcase as [-> | (f & _ & ->)]; cbn [hook_reads];
          rewrite Nat.add_0_r; reflexivity.
Qed.

(** X3.  Over any session that starts with nothing on screen, the hook is
    read once for each render and never for a click: the number of hook
    reads grows by the number of renders, whether the renders and the
    clicks succeed or throw. *)
Theorem session_reads_hook_once_per_render (steps : list Step) (s : State H) :
  hook_reads (trace (snd (session H steps None s))) =
  hook_reads (trace s) + renders steps.
Proof.
  apply session_hook_reads_from. left. reflexivity.
Qed.

(** A session on a host whose hook always hands out the same router, which
    has a [refresh] function, from a tree built on that router. *)
Lemma session_steady_from (router : Val) (f : FnId) (steps : list Step) :
  (forall w, fst (useRouter H w) = Normal router) ->
  GetV router "refresh" = Normal (VFun f) ->
  forall s : State H,
    fst (session H steps (Some (DashboardHeader_jsx H router)) s) =
    Some (DashboardHeader_jsx H router) /\
    invocations (trace (snd (session H steps (Some (DashboardHeader_jsx H router)) s))) =
    invocations (trace s) ++ repeat (f, router, []) (clicks steps).
Proof.
  intros Hhook Hget.
  induction steps as [| step rest IH]; intros s.
  - cbn. rewrite app_nil_r. split; reflexivity.
  - destruct step as [arguments | ev].
    + rewrite session_render, render_unfold. cbn [fst snd]. rewrite Hhook.
      destruct (IH {| world := snd (useRouter H (world s));
                      trace := trace s ++ [EvHook "useRouter"] |}) as [Hm Hinv].
      split; [exact Hm |].
      rewrite Hinv. cbn [trace clicks]. rewrite invocations_app. cbn [invocations].
      rewrite app_nil_r. reflexivity.
    + cbn [session clicks].
      destruct (IH (snd (click H (DashboardHeader_jsx H router) ev s))) as [Hm Hinv].
      split; [exact Hm |].
      rewrite Hinv, (click_refresh H _ _ f _ Hget). cbn [snd trace].
      rewrite invocations_app. cbn [invocations repeat].
      rewrite <- app_assoc. reflexivity.
Qed.

(** X4.  On a host whose hook always hands out the same router, with a
    [refresh] function, mount the header and then render again and click
    in any order.  Then [refresh] was called exactly once for each click:
    renders in between add no call and lose none, and the tree on screen
    at the end is the tree of that router. *)
Theorem session_one_refresh_per_click (router : Val) (f : FnId)
    (arguments : list Val) (steps : list Step) (s : State H) :
  (forall w, fst (useRouter H w) = Normal router) ->
  GetV router "refresh" = Normal (VFun f) ->
  fst (session H (Render arguments :: steps) None s) =
  Some (DashboardHeader_jsx H router) /\
  invocations (trace (snd (session H (Render arguments :: steps) None s))) =
  invocations (trace s) ++ repeat (f, router, []) (clicks steps).
Proof.
  intros Hhook Hget.
  rewrite session_render, render_unfold. cbn [fst snd]. rewrite Hhook.
  destruct (session_steady_from router f steps Hhook Hget
              {| world := snd (useRouter H (world s));
                 trace := trace s ++ [EvHook "useRouter"] |}) as [Hm Hinv].
  split; [exact Hm |].
  rewrite Hinv. cbn [trace]. rewrite invocations_app. cbn [invocations].
  rewrite app_nil_r. reflexivity.
Qed.

Lemma refresh_calls_succ (f : FnId) (router : Val) (n : nat) (w : World H) :
  snd (refresh_calls H f router (S n) w) =
  snd (refresh_calls H f router n (snd (apply_fn H f router [] w))).
Proof.
  cbn [refresh_calls].
  destruct (apply_fn H f router [] w) as [c w1]. cbn [snd].
  destruct (refresh_calls H f router n w1) as [cs w2]. reflexivity.
Qed.

Lemma session_world_from (router : Val) (f : FnId) (steps : list Step) :
  (forall w, useRouter H w = (Normal router, w)) ->
  GetV router "refresh" = Normal (VFun f) ->
  forall s : State H,
    world (snd (session H steps (Some (DashboardHeader_jsx H router)) s)) =
    snd (refresh_calls H f router (clicks steps) (world s)).
Proof.
  intros Hhook Hget.
  induction steps as [| step rest IH]; intros s.
  - reflexivity.
  - destruct step as [arguments | ev].
    + rewrite session_render, render_unfold. cbn [fst snd]. rewrite Hhook.
      cbn [fst snd clicks]. rewrite IH. reflexivity.
    + cbn [session clicks].
      rewrite IH, (click_refresh H _ _ f _ Hget), refresh_calls_succ. reflexivity.
Qed.

(** X5.  On a host whose hook only reads and always hands out the same
    router, with a [refresh] function, mount the header and then render
    again and click in any order.  The world at the end is the world that
    as many calls of [refresh] as there were clicks, one after the other,
    leave: the renders, and the failures of [refresh], change nothing
    else. *)
Theorem session_world_is_the_refreshes (router : Val) (f : FnId)
    (arguments : list Val) (steps : list Step) (s : State H) :
  (forall w, useRouter H w = (Normal router, w)) ->
  GetV router "refresh" = Normal (VFun f) ->
  world (snd (session H (Render arguments :: steps) None s)) =
  snd (refresh_calls H f router (clicks steps) (world s)).
Proof.
  intros Hhook Hget.
  rewrite session_render, render_unfold. cbn [fst snd]. rewrite Hhook.
  cbn [fst snd]. rewrite (session_world_from router f steps Hhook Hget).
  reflexivity.
Qed.

(** X6.  In a rendered tree the button's [onClick] is the only handler:
    the logo, the title, the icon and the two [div]s carry none. *)
Theorem only_the_button_has_a_handler (arguments : list Val) (s : State H)
    (router : Val) (w : World H) :
  useRouter H (world s) = (Normal router, w) ->
  exists t s1,
    DashboardHeader H arguments s = (Normal t, s1) /\
    handler_props H t = [(Component "Button", "onClick")].
Proof.
  intros Hhook.
  eexists; eexists; split; [apply render_normal; exact Hhook |].
  reflexivity.
Qed.

End Lifetime.

(** * The lifetime properties on the stub hosts *)

(** A click before anything is on screen calls nothing; the two clicks
    after the first render call [refresh] once each; the second render
    calls nothing. *)
Example session_on_stub :
  session (stub_host router_ok)
    [Click (VNum 1); Render []; Click (VNum 2); Render [arena2_config]; Click (VNum 3)]
    None (start router_ok) =
  (Some (DashboardHeader_jsx (stub_host router_ok) router_ok),
   Build_State (stub_host router_ok) 2%nat
     [EvHook "useRouter"; EvClick (VNum 2); EvCall 0 router_ok [];
      EvHook "useRouter"; EvClick (VNum 3); EvCall 0 router_ok []]).
Proof. reflexivity. Qed.

(** X1 on the host without a mounted router. *)
Lemma render_hook_fault_propagates_witness :
  useRouter unmounted_host (world (Build_State unmounted_host 0%nat [])) =
  (Throw (VError "Error" "invariant expected app router to be mounted"), 0%nat) /\
  DashboardHeader unmounted_host [] (Build_State unmounted_host 0%nat []) =
  (Throw (VError "Error" "invariant expected app router to be mounted"),
   Build_State unmounted_host 0%nat ([] ++ [EvHook "useRouter"])) /\
  invocations
    (trace (snd (DashboardHeader unmounted_host [] (Build_State unmounted_host 0%nat [])))) =
  invocations (trace (Build_State unmounted_host 0%nat [])).
Proof.
  split; [reflexivity |].
  apply (render_hook_fault_propagates unmounted_host []
           (Build_State unmounted_host 0%nat [])
           (VError "Error" "invariant expected app router to be mounted") 0%nat).
  reflexivity.
Defined.

(** X4 on the stub host: three clicks around a second render. *)
Lemma session_one_refresh_per_click_witness :
  (forall w, fst (useRouter (stub_host router_ok) w) = Normal router_ok) /\
  GetV router_ok "refresh" = Normal (VFun 0) /\
  fst (session (stub_host router_ok)
         (Render [] :: [Click (VNum 1); Render [arena2_config]; Click (VNum 2); Click (VNum 3)])
         None (start router_ok)) =
  Some (DashboardHeader_jsx (stub_host router_ok) router_ok) /\
  invocations
    (trace (snd (session (stub_host router_ok)
                   (Render [] :: [Click (VNum 1); Render [arena2_config];
                                  Click (VNum 2); Click (VNum 3)])
                   None (start router_ok)))) =
  invocations (trace (start router_ok)) ++
  repeat (0%nat, router_ok, [])
    (clicks [Click (VNum 1); Render [arena2_config]; Click (VNum 2); Click (VNum 3)]).
Proof.
  split; [intros w; reflexivity |]. split; [reflexivity |].
  apply (session_one_refresh_per_click (stub_host router_ok) router_ok 0%nat []
           [Click (VNum 1); Render [arena2_config]; Click (VNum 2); Click (VNum 3)]
           (start router_ok));
    [intros w; reflexivity | reflexivity].
Defined.

(** X5 on the stub host, where each [refresh] adds one to the world. *)
Lemma session_world_is_the_refreshes_witness :
  (forall w, useRouter (stub_host router_ok) w = (Normal router_ok, w)) /\
  GetV router_ok "refresh" = Normal (VFun 0) /\
  world (snd (session (stub_host router_ok)
                (Render [] :: [Click (VNum 1); Render [arena2_config]; Click (VNum 2)])
                None (start router_ok))) =
  snd (refresh_calls (stub_host router_ok) 0 router_ok
         (clicks [Click (VNum 1); Render [arena2_config]; Click (VNum 2)])
         (world (start router_ok))).
Proof.
  split; [intros w; reflexivity |]. split; [reflexivity |].
  apply (session_world_is_the_refreshes (stub_host router_ok) router_ok 0%nat []
           [Click (VNum 1); Render [arena2_config]; Click (VNum 2)]
           (start router_ok));
    [intros w; reflexivity | reflexivity].
Defined.

(** X6 on the stub host. *)
Lemma only_the_button_has_a_handler_witness :
  useRouter (stub_host router_ok) (world (start router_ok)) = (Normal router_ok, 0%nat) /\
  exists t s1,
    DashboardHeader (stub_host router_ok) [] (start router_ok) = (Normal t, s1) /\
    handler_props (stub_host router_ok) t = [(Component "Button", "onClick")].
Proof.
  split; [reflexivity |].
  apply (only_the_button_has_a_handler (stub_host router_ok) [] (start router_ok)
           router_ok 0%nat); reflexivity.
Defined.

(** X2 at work on a host that changes router: the first click calls the
    [refresh] of the router of the first render; after the second render
    both clicks call the [refresh] of the router of that render, also the
    last one, which comes when the hook would hand out the first router
    again. *)
Example session_on_switching_host :
  expected_calls switching_host
    [Render []; Click (VNum 1); Render []; Click (VNum 2); Click (VNum 3)]
    None 0%nat =
  [(0%nat, router_ok, []); (2%nat, router_answering, []); (2%nat, router_answering, [])] /\
  invocations
    (trace (snd (session switching_host
                   [Render []; Click (VNum 1); Render []; Click (VNum 2); Click (VNum 3)]
                   None (Build_State switching_host 0%nat [])))) =
  [(0%nat, router_ok, []); (2%nat, router_answering, []); (2%nat, router_answering, [])].
Proof. split; reflexivity. Qed.

(** A click cannot choose the receiver: with an event that itself carries
    a [refresh], the call still goes to the router's. *)
Example event_with_refresh_is_not_called :
  invocations
    (trace (snd (session (stub_host router_ok)
                   [Render []; Click router_answering]
                   None (start router_ok)))) =
  [(0%nat, router_ok, [])].
Proof. reflexivity. Qed.
